(** * TerraLedger front end: emission tracker and marketplace figures

    A shallow embedding of the two React components of the front end that
    compute with numbers:

    - [EmissionTracker] (src/frontend/src/pages/EmissionTracker.tsx), the
      household emission calculator page;
    - [Marketplace] (second component of
      src/frontend/src/components/Navigation.tsx), the credit catalogue with
      its filter tabs and statistics.

    JavaScript numbers are IEEE 754 binary64 values: they are embedded as
    Rocq's primitive floats, whose operations round to nearest-even as the
    JavaScript ones do.  JavaScript strings are embedded as [string]; every
    string literal of the two components is ASCII. *)

From Stdlib Require Import Floats ZArith QArith List String Ascii Bool Lia.
From Stdlib Require Import Numbers.DecimalString Sorting.Permutation.
Import ListNotations.

Set Warnings "-inexact-float".

Local Open Scope string_scope.

(** ** JavaScript built-ins used by the components *)

Module JS.

(** [Array.prototype.reduce(callback, initialValue)]: a left fold that
    starts from [initialValue]. *)
Definition reduce {A B : Type} (callback : B -> A -> B) (initialValue : B)
  (arr : list A) : B :=
  fold_left callback arr initialValue.

(** [Array.prototype.filter]. *)
Definition filter {A : Type} (p : A -> bool) (arr : list A) : list A :=
  List.filter p arr.

(** The exact rational a finite number denotes ([None] for NaN and the
    infinities), in lowest terms. *)
Definition exactQ (x : float) : option Q :=
  match Prim2SF x with
  | S754_zero _ => Some (0 # 1)
  | S754_finite s m e =>
      let v := match e with
               | Z0 => Zpos m # 1
               | Zpos p => (Zpos m * 2 ^ Zpos p) # 1
               | Zneg p => Zpos m # (2 ^ p)
               end in
      Some (Qred (if s then Qopp v else v))
  | _ => None
  end.

(** The exact sum of the rationals a list of finite numbers denotes. *)
Definition exactSum (xs : list float) : option Q :=
  List.fold_right
    (fun x acc =>
       match exactQ x, acc with
       | Some q, Some r => Some (Qred (q + r))
       | _, _ => None
       end)
    (Some (0 # 1)) xs.

Definition pow10 (k : nat) : Z := 10 ^ Z.of_nat k.

(** Decimal digits of a natural number, without leading zeros
    (["0"] for zero). *)
Definition decimal (n : Z) : string :=
  NilZero.string_of_uint (N.to_uint (Z.to_N n)).

Fixpoint zeros (k : nat) : string :=
  match k with
  | O => EmptyString
  | S k' => String "0" (zeros k')
  end.

(** Split [s] so that the second part holds the last [k] characters,
    padding with zeros on the left so that at least one digit stays in front. *)
Definition splitFraction (s : string) (k : nat) : string * string :=
  let padded := zeros (S k - String.length s) ++ s in
  let cut := (String.length padded - k)%nat in
  (substring 0 cut padded, substring cut k padded).

(** [Number.prototype.toFixed(fractionDigits)] for [0 <= fractionDigits <= 100]:
    the integer [n] for which [n / 10^f - x] is closest to zero (the larger
    one on a tie), written with [f] digits after the point.  Magnitudes
    from [1e21] on are printed by JavaScript in exponent notation, which is
    not modelled: the result is [None] there. *)
Definition toFixed (x : float) (fractionDigits : nat) : option string :=
  match Prim2SF x with
  | S754_nan => Some "NaN"
  | S754_infinity false => Some "Infinity"
  | S754_infinity true => Some "-Infinity"
  | S754_zero _ =>
      Some (if Nat.eqb fractionDigits 0 then "0"
            else "0." ++ zeros fractionDigits)
  | S754_finite s m e =>
      let scaled := (Zpos m * pow10 fractionDigits)%Z in
      let n := match e with
               | Z0 => scaled
               | Zpos p => (scaled * 2 ^ Zpos p)%Z
               | Zneg p => ((2 * scaled + 2 ^ Zpos p) / (2 * 2 ^ Zpos p))%Z
               end in
      if (n <? pow10 (21 + fractionDigits))%Z then
        let sign := if s then "-" else EmptyString in
        let '(int_part, frac_part) := splitFraction (decimal n) fractionDigits in
        Some (sign ++ int_part ++
              (if Nat.eqb fractionDigits 0 then EmptyString
               else "." ++ frac_part))
      else None
  end.

(** [String.prototype.toLowerCase], on ASCII text: the letters [A]-[Z]
    become [a]-[z], every other character stays. *)
Definition toLowerCaseChar (c : ascii) : ascii :=
  let n := nat_of_ascii c in
  if (65 <=? n)%nat && (n <=? 90)%nat then ascii_of_nat (n + 32) else c.

Fixpoint toLowerCase (s : string) : string :=
  match s with
  | EmptyString => EmptyString
  | String c s' => String (toLowerCaseChar c) (toLowerCase s')
  end.

(** [String.prototype.startsWith(searchString)]. *)
Fixpoint startsWith (s searchString : string) : bool :=
  match searchString, s with
  | EmptyString, _ => true
  | String _ _, EmptyString => false
  | String a p, String b s' => Ascii.eqb a b && startsWith s' p
  end.

(** [String.prototype.includes(searchString)]: [searchString] occurs in [s]
    at some position. *)
Fixpoint includes (s searchString : string) : bool :=
  startsWith s searchString ||
  match s with
  | EmptyString => false
  | String _ s' => includes s' searchString
  end.

End JS.

(** ** Outcomes

    A JavaScript call either returns a value or throws.  The two error
    kinds are the ones the specification names. *)

Inductive Error : Type := InvalidInput | InvalidConfiguration.

Inductive Outcome (A : Type) : Type :=
| Returned (a : A)
| Thrown (e : Error).

Arguments Returned {A} a.
Arguments Thrown {A} e.

(** ** The EmissionTracker page *)

Module Tracker.

(** *** Component state

    The four [useState] cells of the component, all initialised with the
    empty string. *)
Record State : Type := mkState {
  cookingFuel : string;
  fuelAmount : string;
  generatorHours : string;
  wasteAmount : string
}.

Definition initialState : State :=
  mkState EmptyString EmptyString EmptyString EmptyString.

(** Code that runs against the component state and may throw: a state and
    error monad.  A throw stops the computation and keeps the state
    reached. *)
Definition Hook (A : Type) : Type := State -> Outcome A * State.

Definition ret {A : Type} (a : A) : Hook A := fun st => (Returned a, st).

Definition bind {A B : Type} (m : Hook A) (k : A -> Hook B) : Hook B :=
  fun st =>
    match m st with
    | (Returned a, st') => k a st'
    | (Thrown e, st') => (Thrown e, st')
    end.

Notation "x <- m ;; k" := (bind m (fun x => k))
  (at level 61, m at next level, right associativity).

(** Reading a cell during a render ([const [v, setV] = useState(...)]). *)
Definition useState (cell : State -> string) : Hook string :=
  fun st => (Returned (cell st), st).

(** The four setters. *)
Definition setCookingFuel (v : string) : Hook unit :=
  fun st => (Returned tt,
             mkState v (fuelAmount st) (generatorHours st) (wasteAmount st)).

Definition setFuelAmount (v : string) : Hook unit :=
  fun st => (Returned tt,
             mkState (cookingFuel st) v (generatorHours st) (wasteAmount st)).

Definition setGeneratorHours (v : string) : Hook unit :=
  fun st => (Returned tt,
             mkState (cookingFuel st) (fuelAmount st) v (wasteAmount st)).

Definition setWasteAmount (v : string) : Hook unit :=
  fun st => (Returned tt,
             mkState (cookingFuel st) (fuelAmount st) (generatorHours st) v).

(** *** The figures (lines 18-26) *)

Record MonthlyEmissions : Type := mkMonthlyEmissions {
  cooking : float;
  electricity : float;
  transport : float;
  waste : float
}.

Definition monthlyEmissions : MonthlyEmissions :=
  {| cooking := 45; (* kg CO2 *)
     electricity := 32;
     transport := 28;
     waste := 15 |}.

(** [Object.values] and [Object.entries] list the properties in insertion
    order. *)
Definition Object_values (o : MonthlyEmissions) : list float :=
  [cooking o; electricity o; transport o; waste o].

Definition Object_entries (o : MonthlyEmissions) : list (string * float) :=
  [("cooking", cooking o); ("electricity", electricity o);
   ("transport", transport o); ("waste", waste o)].

Definition totalEmissions : float :=
  JS.reduce (fun a b => a + b)%float 0%float (Object_values monthlyEmissions).

Definition yearlyEmissions : float := (totalEmissions * 12)%float.

(** *** The numbers the JSX formats *)

(** Lines 177 and 247: [yearlyEmissions / 1000]. *)
Definition tonsPerYear : float := (yearlyEmissions / 1000)%float.

(** Line 198: [yearlyEmissions / 2000]. *)
Definition creditsToOffset : float := (yearlyEmissions / 2000)%float.

(** Line 299: [(yearlyEmissions * 0.4) / 1000]. *)
Definition remainingTons : float := ((yearlyEmissions * 0.4) / 1000)%float.

(** Line 302: [(yearlyEmissions * 0.4) / 1000 * 15]. *)
Definition estimatedCost : float :=
  ((yearlyEmissions * 0.4) / 1000 * 15)%float.

(** *** What a render shows

    One field per JSX expression that carries a value; the static text and
    the recommendation cards are left out. *)
Record BreakdownRow : Type := mkRow {
  row_category : string;          (* [{category}] *)
  row_amount : float;             (* [{amount} kg CO2] *)
  row_progress : float            (* [(amount / totalEmissions) * 100] *)
}.

Record View : Type := mkView {
  (* the form controls echo the state *)
  select_value : string;
  fuelAmount_value : string;
  generatorHours_value : string;
  wasteAmount_value : string;
  (* "Your Carbon Footprint" card *)
  total_kg : float;                         (* line 175 *)
  tons_per_year : option string;            (* line 177 *)
  breakdown : list BreakdownRow;            (* lines 181-189 *)
  offset_credits : option string;           (* line 198 *)
  (* "Monthly Tracker" tab *)
  month_kg : float;                         (* line 214 *)
  goal_progress : float;                    (* line 221 *)
  annual_tons : option string;              (* line 247 *)
  annual_percent : option string;           (* line 252 *)
  annual_progress : float;                  (* line 254 *)
  (* "Carbon Offset Opportunity" card *)
  remaining_tons : option string;           (* line 299 *)
  estimated_cost : option string            (* line 302 *)
}.

(** The body of the component function, lines 25-26 and the JSX, with the
    object literal of lines 18-23 as its argument.  It reads its four state
    cells and returns the view; nothing in it throws. *)
Definition EmissionTrackerOf (monthlyEmissions : MonthlyEmissions) : Hook View :=
  let totalEmissions :=
    JS.reduce (fun a b => a + b)%float 0%float (Object_values monthlyEmissions) in
  let yearlyEmissions := (totalEmissions * 12)%float in
  cookingFuel <- useState cookingFuel ;;
  fuelAmount <- useState fuelAmount ;;
  generatorHours <- useState generatorHours ;;
  wasteAmount <- useState wasteAmount ;;
  ret {| select_value := cookingFuel;
         fuelAmount_value := fuelAmount;
         generatorHours_value := generatorHours;
         wasteAmount_value := wasteAmount;
         total_kg := totalEmissions;
         tons_per_year := JS.toFixed (yearlyEmissions / 1000) 1;
         breakdown :=
           List.map (fun '(category, amount) =>
                       mkRow category amount
                             ((amount / totalEmissions) * 100)%float)
                    (Object_entries monthlyEmissions);
         offset_credits := JS.toFixed (yearlyEmissions / 2000) 1;
         month_kg := totalEmissions;
         goal_progress := ((totalEmissions / 100) * 100)%float;
         annual_tons := JS.toFixed (yearlyEmissions / 1000) 1;
         annual_percent :=
           JS.toFixed ((yearlyEmissions / 1000) / 1.0 * 100) 0;
         annual_progress := (((yearlyEmissions / 1000) / 1.0) * 100)%float;
         remaining_tons := JS.toFixed ((yearlyEmissions * 0.4) / 1000) 1;
         estimated_cost :=
           JS.toFixed ((yearlyEmissions * 0.4) / 1000 * 15) 0 |}.

(** The component function: its body at the literal [monthlyEmissions]. *)
Definition EmissionTracker : Hook View := EmissionTrackerOf monthlyEmissions.

(** *** Events

    The handlers the JSX attaches: the select and the three inputs call
    their setter; the buttons ("Calculate Emissions", "Learn More", "Browse
    Credits") have no [onClick]. *)
Inductive Event : Type :=
| SelectValueChange (value : string)
| FuelAmountChange (value : string)
| GeneratorHoursChange (value : string)
| WasteAmountChange (value : string)
| ButtonClick.

Definition handle (e : Event) : Hook unit :=
  match e with
  | SelectValueChange v => setCookingFuel v
  | FuelAmountChange v => setFuelAmount v
  | GeneratorHoursChange v => setGeneratorHours v
  | WasteAmountChange v => setWasteAmount v
  | ButtonClick => ret tt
  end.

(** The state after a sequence of events. *)
Fixpoint after (events : list Event) (st : State) : State :=
  match events with
  | [] => st
  | e :: rest => after rest (snd (handle e st))
  end.

(** The amount a view shows for a category. *)
Definition amountOf (category : string) (v : View) : option float :=
  option_map row_amount
    (List.find (fun r => String.eqb (row_category r) category) (breakdown v)).

End Tracker.

(** ** The aggregator as the specification words it

    Section 4.1 of the specification describes three operations,
    [computeMonthlyFootprint], [projectYearly] and [recommendOffset].  The
    definitions of this module follow those words; they are what the
    component above is compared with. *)

Module Spec.

Inductive Category : Type := Cooking | Electricity | Transport | Waste.

Inductive FuelType : Type := Charcoal | Firewood | Kerosene | LPG | Electric.

Definition Category_eqb (a b : Category) : bool :=
  match a, b with
  | Cooking, Cooking | Electricity, Electricity
  | Transport, Transport | Waste, Waste => true
  | _, _ => false
  end.

Definition categoryName (c : Category) : string :=
  match c with
  | Cooking => "cooking"
  | Electricity => "electricity"
  | Transport => "transport"
  | Waste => "waste"
  end.

(** One entry of user data, as entered: the quantity and the fuel-type
    selector are still text, since the operation is the one that rejects
    non-numeric quantities and unrecognised fuel types. *)
Record ActivityInput : Type := mkInput {
  category : Category;
  quantity : string;
  fuelType : string
}.

(** The static factor table: one coefficient per cooking fuel, and a single
    fixed coefficient for each other category. *)
Record EmissionFactor : Type := mkFactors {
  fuelFactor : FuelType -> float;
  categoryFactor : Category -> float
}.

Record MonthlyFootprint : Type := mkFootprint {
  cooking : float;
  electricity : float;
  transport : float;
  waste : float;
  total : float
}.

(** The recognised fuel-type selectors (the values of the select's items). *)
Definition recognise (s : string) : option FuelType :=
  if String.eqb s "charcoal" then Some Charcoal
  else if String.eqb s "firewood" then Some Firewood
  else if String.eqb s "kerosene" then Some Kerosene
  else if String.eqb s "lpg" then Some LPG
  else if String.eqb s "electric" then Some Electric
  else None.

(** *** Reading a quantity

    A quantity is numeric when it is an optional minus sign followed by
    decimal digits with at most one point among them.  Its value is the
    binary64 number nearest to the decimal. *)

Definition isDigit (c : ascii) : bool :=
  let n := nat_of_ascii c in (48 <=? n)%nat && (n <=? 57)%nat.

Fixpoint readDigits (s : string) (acc : Z) (count : nat) : Z * nat * string :=
  match s with
  | String c s' =>
      if isDigit c
      then readDigits s' (10 * acc + (Z.of_nat (nat_of_ascii c) - 48))%Z (S count)
      else (acc, count, s)
  | EmptyString => (acc, count, s)
  end.

(** Mantissa and number of fraction digits of an unsigned decimal. *)
Definition parseUnsigned (s : string) : option (Z * nat) :=
  let '(i, ni, rest) := readDigits s 0 0 in
  match rest with
  | EmptyString => if Nat.eqb ni 0 then None else Some (i, O)
  | String c rest' =>
      if Ascii.eqb c "."%char then
        let '(m, nf, rest'') := readDigits rest' i 0 in
        match rest'' with
        | EmptyString => if Nat.eqb (ni + nf) 0 then None else Some (m, nf)
        | _ => None
        end
      else None
  end.

(** The binary64 number nearest to [m / 10^k], for [0 <= m]: the quotient
    is taken with more than 64 significant bits, a sticky bit records a
    non-zero remainder, and one rounding to nearest-even follows. *)
Definition decimalToFloat (m : Z) (k : nat) : float :=
  if (m <=? 0)%Z then 0%float
  else
    let d := JS.pow10 k in
    let shift := Z.max 0 (66 + Z.log2 d - Z.log2 m) in
    let q := ((m * 2 ^ shift) / d)%Z in
    let sticky := if ((m * 2 ^ shift) mod d =? 0)%Z then 0%Z else 1%Z in
    SF2Prim (binary_normalize prec emax (2 * q + sticky) (- (shift + 1)) false).

Definition parseNumber (s : string) : option float :=
  match s with
  | String c s' =>
      if Ascii.eqb c "-"%char
      then option_map (fun '(m, k) => (- decimalToFloat m k)%float)
                      (parseUnsigned s')
      else option_map (fun '(m, k) => decimalToFloat m k) (parseUnsigned s)
  | EmptyString => None
  end.

(** *** computeMonthlyFootprint *)

(** "fails with InvalidInput when quantity is negative, non-numeric, or (for
    cooking) fuel-type is unrecognized". *)
Definition invalid (i : ActivityInput) : bool :=
  match parseNumber (quantity i) with
  | None => true
  | Some q =>
      (q <? 0)%float ||
      match category i, recognise (fuelType i) with
      | Cooking, None => true
      | _, _ => false
      end
  end.

Definition invalidInput (inputs : list ActivityInput) : bool :=
  existsb invalid inputs.

(** "For the cooking category, subtotal = quantity x EmissionFactor[fuel-type];
    for other categories, subtotal = quantity x EmissionFactor[category]". *)
Definition subtotal (ef : EmissionFactor) (i : ActivityInput) : float :=
  match parseNumber (quantity i) with
  | None => nan
  | Some q =>
      match category i, recognise (fuelType i) with
      | Cooking, Some fuel => (q * fuelFactor ef fuel)%float
      | Cooking, None => nan
      | c, _ => (q * categoryFactor ef c)%float
      end
  end.

(** "one per category (a category may be absent, treated as zero
    quantity)": the subtotal of a category is that of its entry, and zero
    when it has none. *)
Definition categorySubtotal (ef : EmissionFactor) (inputs : list ActivityInput)
  (c : Category) : float :=
  match List.find (fun i => Category_eqb (category i) c) inputs with
  | Some i => subtotal ef i
  | None => 0%float
  end.

(** "Result: MonthlyFootprint with all four category subtotals (0 if absent)
    and their sum as total." *)
Definition computeMonthlyFootprint (ef : EmissionFactor)
  (inputs : list ActivityInput) : Outcome MonthlyFootprint :=
  if invalidInput inputs then Thrown InvalidInput
  else
    let c := categorySubtotal ef inputs Cooking in
    let e := categorySubtotal ef inputs Electricity in
    let t := categorySubtotal ef inputs Transport in
    let w := categorySubtotal ef inputs Waste in
    Returned (mkFootprint c e t w (c + e + t + w)%float).

(** *** projectYearly *)



(** *** recommendOffset *)

Record OffsetRecommendation : Type := mkOffset {
  creditsNeeded : float;
  estimatedCostUSD : float
}.

(** "creditsNeeded = yearlyTonnage x 1000 / kgPerCredit";
    "estimatedCostUSD = creditsNeeded x creditPriceUSD"; "Fails with
    InvalidConfiguration if kgPerCredit <= 0 or creditPriceUSD < 0". *)
Definition recommendOffset (yearlyTonnage creditPriceUSD kgPerCredit : float)
  : Outcome OffsetRecommendation :=
  if (kgPerCredit <=? 0)%float || (creditPriceUSD <? 0)%float
  then Thrown InvalidConfiguration
  else
    let credits := (yearlyTonnage * 1000 / kgPerCredit)%float in
    Returned (mkOffset credits (credits * creditPriceUSD)%float).

End Spec.

(** ** The form as input of the aggregator

    The presentation layer sources the activity inputs from the form: a
    field left blank is an absent category, and the form has no transport
    field at all. *)

Definition activityInputs (st : Tracker.State) : list Spec.ActivityInput :=
  (if String.eqb (Tracker.fuelAmount st) EmptyString then []
   else [Spec.mkInput Spec.Cooking (Tracker.fuelAmount st)
                      (Tracker.cookingFuel st)]) ++
  (if String.eqb (Tracker.generatorHours st) EmptyString then []
   else [Spec.mkInput Spec.Electricity (Tracker.generatorHours st)
                      EmptyString]) ++
  (if String.eqb (Tracker.wasteAmount st) EmptyString then []
   else [Spec.mkInput Spec.Waste (Tracker.wasteAmount st) EmptyString]).

(** A view shows a footprint when the amount of each category's row and
    the total are the footprint's. *)
Definition shows (v : Tracker.View) (fp : Spec.MonthlyFootprint) : Prop :=
  Tracker.amountOf (Spec.categoryName Spec.Cooking) v =
    Some (Spec.cooking fp) /\
  Tracker.amountOf (Spec.categoryName Spec.Electricity) v =
    Some (Spec.electricity fp) /\
  Tracker.amountOf (Spec.categoryName Spec.Transport) v =
    Some (Spec.transport fp) /\
  Tracker.amountOf (Spec.categoryName Spec.Waste) v =
    Some (Spec.waste fp) /\
  Tracker.total_kg v = Spec.total fp.
(** ** The Marketplace page *)

Module Market.

Record CarbonCredit : Type := mkCredit {
  id : float;
  name : string;
  location : string;
  type : string;
  price : float;
  totalCredits : float;
  availableCredits : float;
  sequestrationRate : float;
  verification : string;
  rating : float;
  image : string;
  impact : string
}.

(** The static catalogue (lines 117-174 of the file that holds the
    component).  The images are imported assets; they are named by their
    import path. *)
Definition carbonCredits : list CarbonCredit :=
  [ {| id := 1;
       name := "Kenyan Agroforestry Project";
       location := "Nakuru County, Kenya";
       type := "Agroforestry";
       price := 12.50;
       totalCredits := 1000;
       availableCredits := 750;
       sequestrationRate := 85;
       verification := "AI + Satellite";
       rating := 4.9;
       image := "@/assets/kenyan-agroforestry.jpg";
       impact := "Supporting 200 farming families while restoring degraded land" |};
    {| id := 2;
       name := "Nigerian Mangrove Restoration";
       location := "Niger Delta, Nigeria";
       type := "Coastal Restoration";
       price := 18.75;
       totalCredits := 500;
       availableCredits := 320;
       sequestrationRate := 92;
       verification := "AI + Satellite";
       rating := 4.8;
       image := "@/assets/nigerian-mangrove.jpg";
       impact := "Protecting coastal communities and biodiversity" |};
    {| id := 3;
       name := "Ethiopian Highland Reforestation";
       location := "Amhara Region, Ethiopia";
       type := "Reforestation";
       price := 15.30;
       totalCredits := 2000;
       availableCredits := 1650;
       sequestrationRate := 78;
       verification := "AI + Satellite";
       rating := 4.7;
       image := "@/assets/ethiopian-highland.jpg";
       impact := "Restoring traditional forest landscapes and water sources" |};
    {| id := 4;
       name := "Ghanaian Cocoa Agroforestry";
       location := "Ashanti Region, Ghana";
       type := "Agroforestry";
       price := 14.20;
       totalCredits := 800;
       availableCredits := 480;
       sequestrationRate := 89;
       verification := "AI + Satellite";
       rating := 4.9;
       image := "@/assets/ghanaian-cocoa.jpg";
       impact := "Improving cocoa farmer livelihoods through sustainable practices" |} ].

(** The single state cell, [useState("all")]. *)
Definition initialFilter : string := "all".

(** Lines 176-178. *)
Definition filteredCredits (selectedFilter : string) : list CarbonCredit :=
  if String.eqb selectedFilter "all"
  then carbonCredits
  else JS.filter
         (fun credit =>
            JS.includes (JS.toLowerCase (type credit))
                        (JS.toLowerCase selectedFilter))
         carbonCredits.

(** The statistics row (lines 219-231), before [toLocaleString] formats
    the numbers. *)
Record Statistics : Type := mkStatistics {
  activeProjects : nat;
  creditsAvailable : float;
  totalValue : float
}.

Record View : Type := mkView {
  statistics : Statistics;
  cards : list CarbonCredit
}.

Definition Marketplace (selectedFilter : string) : View :=
  let filteredCredits := filteredCredits selectedFilter in
  {| statistics :=
       {| activeProjects := List.length filteredCredits;
          creditsAvailable :=
            JS.reduce (fun acc credit => acc + availableCredits credit)%float
                      0%float filteredCredits;
          totalValue :=
            JS.reduce
              (fun acc credit =>
                 acc + (price credit * availableCredits credit))%float
              0%float filteredCredits |};
     cards := filteredCredits |}.

(** The tabs set the filter ([onValueChange={setSelectedFilter}]); their
    values are the four below. *)
Definition tabValues : list string :=
  ["all"; "agroforestry"; "reforestation"; "coastal"].

End Market.

(** ** Case-insensitive containment, stated on its own

    Two characters are the same up to case when they are equal or are the
    two cases of one letter; a text contains a pattern case-insensitively
    when some stretch of it matches the pattern character by character up
    to case. *)

Definition isUpper (c : ascii) : Prop :=
  (65 <= nat_of_ascii c <= 90)%nat.

Definition sameUpToCase (a b : ascii) : Prop :=
  a = b \/
  (isUpper a /\ nat_of_ascii b = nat_of_ascii a + 32)%nat \/
  (isUpper b /\ nat_of_ascii a = nat_of_ascii b + 32)%nat.

Inductive matchesUpToCase : string -> string -> Prop :=
| matches_nil : matchesUpToCase EmptyString EmptyString
| matches_cons a b s t :
    sameUpToCase a b -> matchesUpToCase s t ->
    matchesUpToCase (String a s) (String b t).

Definition containsUpToCase (text pattern : string) : Prop :=
  exists before middle after_,
    text = before ++ middle ++ after_ /\ matchesUpToCase middle pattern.

(** Sums over a list of credits, from zero, in list order. *)
Definition sumOver (f : Market.CarbonCredit -> float)
  (credits : list Market.CarbonCredit) : float :=
  List.fold_left (fun acc credit => acc + f credit)%float credits 0%float.

(** ** The tracker's events, by field *)

Definition selectValue (e : Tracker.Event) : option string :=
  match e with Tracker.SelectValueChange v => Some v | _ => None end.

Definition fuelAmountValue (e : Tracker.Event) : option string :=
  match e with Tracker.FuelAmountChange v => Some v | _ => None end.

Definition generatorHoursValue (e : Tracker.Event) : option string :=
  match e with Tracker.GeneratorHoursChange v => Some v | _ => None end.

Definition wasteAmountValue (e : Tracker.Event) : option string :=
  match e with Tracker.WasteAmountChange v => Some v | _ => None end.

(** The value carried by the last event that [pick] selects, [default]
    when there is none. *)
Fixpoint lastValue (pick : Tracker.Event -> option string)
  (events : list Tracker.Event) (default : string) : string :=
  match events with
  | [] => default
  | e :: rest =>
      lastValue pick rest
        (match pick e with Some v => v | None => default end)
  end.

Definition isButtonClick (e : Tracker.Event) : bool :=
  match e with Tracker.ButtonClick => true | _ => false end.

(** The state a view's form controls show. *)
Definition controls (v : Tracker.View) : Tracker.State :=
  Tracker.mkState (Tracker.select_value v) (Tracker.fuelAmount_value v)
                  (Tracker.generatorHours_value v) (Tracker.wasteAmount_value v).

(** ** The navigation bar

    The first component of src/frontend/src/components/Navigation.tsx
    (lines 6-97). *)

Module Nav.

Record NavItem : Type := mkItem {
  path : string;
  label : string;
  icon : string
}.

(** Lines 10-17; an icon is named by its component. *)
Definition navItems : list NavItem :=
  [ mkItem "/" "Home" "Leaf";
    mkItem "/marketplace" "Marketplace" "ShoppingCart";
    mkItem "/dashboard" "Dashboard" "BarChart3";
    mkItem "/tracker" "Emission Tracker" "Calculator";
    mkItem "/regulator" "Map View" "Map";
    mkItem "/education" "Learn" "BookOpen" ].

(** The component reads its [useState(false)] cell and the router's
    location. *)
Record State : Type := mkState {
  isOpen : bool;
  location_pathname : string
}.

Definition initialState (pathname : string) : State := mkState false pathname.

(** Line 19: [location.pathname === path]. *)
Definition isActive (location_pathname path : string) : bool :=
  String.eqb location_pathname path.

(** A desktop entry (lines 35-45): a link around a button. *)
Record DesktopLink : Type := mkDesktop {
  d_to : string;
  d_variant : string;
  d_icon : string;
  d_label : string
}.

(** A mobile entry (lines 71-85): a link with a class name. *)
Record MobileLink : Type := mkMobile {
  m_to : string;
  m_className : string;
  m_icon : string;
  m_label : string
}.

Record View : Type := mkView {
  desktop : list DesktopLink;
  menu_button_icon : string;             (* line 62 *)
  mobile : option (list MobileLink)      (* [isOpen && (...)], line 68 *)
}.

Definition Navigation (st : State) : View :=
  let isActive := isActive (location_pathname st) in
  {| desktop :=
       List.map (fun item =>
                   mkDesktop (path item)
                             (if isActive (path item) then "default" else "ghost")
                             (icon item) (label item))
                navItems;
     menu_button_icon := if isOpen st then "X" else "Menu";
     mobile :=
       if isOpen st then
         Some (List.map
                 (fun item =>
                    mkMobile (path item)
                      ("flex items-center space-x-2 px-3 py-2 rounded-md text-sm font-medium transition-colors " ++
                       (if isActive (path item)
                        then "bg-primary text-primary-foreground"
                        else "text-foreground hover:bg-accent hover:text-accent-foreground"))
                      (icon item) (label item))
                 navItems)
       else None |}.

(** The handlers: the menu button flips [isOpen] (line 60), a mobile link
    closes the menu (line 75); every link is a router [Link], which makes
    its [to] the location.  The "Buy Credits" buttons have no handler. *)
Inductive Event : Type :=
| MenuButtonClick
| LogoClick
| DesktopLinkClick (item : NavItem)
| MobileLinkClick (item : NavItem)
| BuyCreditsClick.

Definition handle (e : Event) (st : State) : State :=
  match e with
  | MenuButtonClick => mkState (negb (isOpen st)) (location_pathname st)
  | LogoClick => mkState (isOpen st) "/"
  | DesktopLinkClick item => mkState (isOpen st) (path item)
  | MobileLinkClick item => mkState false (path item)
  | BuyCreditsClick => st
  end.

Definition after (events : list Event) (st : State) : State :=
  List.fold_left (fun st e => handle e st) events st.

(** The entries a view highlights. *)
Definition highlighted (v : View) : list DesktopLink :=
  List.filter (fun b => String.eqb (d_variant b) "default") (desktop v).

Definition activeClass : string := "bg-primary text-primary-foreground".

End Nav.

(** ** The Dashboard page

    src/frontend/src/pages/Dashboard.tsx: the statistics row and the "My
    Credits" tab.  The "Impact Report" and "Achievements" tabs hold static
    text only and are left out. *)

Module Dashboard.

Record UserStats : Type := mkUserStats {
  totalCredits : float;
  totalOffset : float;
  activeProjects : float;
  retiredCredits : float
}.

Definition userStats : UserStats :=
  {| totalCredits := 47.5;
     totalOffset := 95000; (* kg CO2 *)
     activeProjects := 8;
     retiredCredits := 23.2 |}.

Record OwnedCredit : Type := mkOwned {
  id : float;
  project : string;
  credits : float;
  purchaseDate : string;
  status : string;
  currentValue : float;
  offset : float
}.

Definition ownedCredits : list OwnedCredit :=
  [ {| id := 1;
       project := "Kenyan Agroforestry Project";
       credits := 12.5;
       purchaseDate := "2024-01-15";
       status := "Active";
       currentValue := 156.25;
       offset := 25000 |};
    {| id := 2;
       project := "Nigerian Mangrove Restoration";
       credits := 8.3;
       purchaseDate := "2024-02-10";
       status := "Active";
       currentValue := 155.63;
       offset := 16600 |};
    {| id := 3;
       project := "Ethiopian Highland Reforestation";
       credits := 15.2;
       purchaseDate := "2024-01-28";
       status := "Active";
       currentValue := 232.56;
       offset := 30400 |};
    {| id := 4;
       project := "Ghanaian Cocoa Agroforestry";
       credits := 11.5;
       purchaseDate := "2024-02-20";
       status := "Retired";
       currentValue := 163.30;
       offset := 23000 |} ].

(** One card of the "My Credits" tab (lines 135-178). *)
Record CreditCard : Type := mkCard {
  card_key : float;
  card_project : string;
  card_credits : float;
  card_purchaseDate : string;
  badge_variant : string;
  badge_text : string;
  card_currentValue : float;
  card_offset_tons : option string;
  retire_button : bool
}.

Record View : Type := mkView {
  stat_totalCredits : float;               (* line 79 *)
  stat_offset_tons : option string;        (* line 92 *)
  stat_activeProjects : float;             (* line 105 *)
  stat_retiredCredits : float;             (* line 118 *)
  creditCards : list CreditCard
}.

Definition Dashboard : View :=
  {| stat_totalCredits := totalCredits userStats;
     stat_offset_tons := JS.toFixed (totalOffset userStats / 1000) 1;
     stat_activeProjects := activeProjects userStats;
     stat_retiredCredits := retiredCredits userStats;
     creditCards :=
       List.map
         (fun credit =>
            {| card_key := id credit;
               card_project := project credit;
               card_credits := credits credit;
               card_purchaseDate := purchaseDate credit;
               badge_variant :=
                 if String.eqb (status credit) "Active"
                 then "default" else "secondary";
               badge_text := status credit;
               card_currentValue := currentValue credit;
               card_offset_tons := JS.toFixed (offset credit / 1000) 1;
               retire_button := String.eqb (status credit) "Active" |})
         ownedCredits |}.

End Dashboard.

(** * Properties *)

(** ** The built-ins on some inputs *)

Example toFixed_examples :
  JS.toFixed 1.44 1 = Some "1.4" /\
  JS.toFixed 0.05 1 = Some "0.1" /\
  JS.toFixed 1.005 2 = Some "1.00" /\
  JS.toFixed 2.5 0 = Some "3" /\
  JS.toFixed (-2.5) 0 = Some "-3" /\
  JS.toFixed 1234.5678 2 = Some "1234.57" /\
  JS.toFixed 0.000001 3 = Some "0.000" /\
  JS.toFixed (1 / 0) 1 = Some "Infinity" /\
  JS.toFixed 1e21 1 = None.
Proof. vm_compute. repeat split. Qed.

Example parseNumber_examples :
  Spec.parseNumber "5" = Some 5%float /\
  Spec.parseNumber "10.67" = Some 10.67%float /\
  Spec.parseNumber "-0.1" = Some (-0.1)%float /\
  Spec.parseNumber ".5" = Some 0.5%float /\
  Spec.parseNumber "9007199254740993" = Some 9007199254740992%float /\
  Spec.parseNumber "abc" = None /\
  Spec.parseNumber "-" = None /\
  Spec.parseNumber "1.2.3" = None /\
  Spec.parseNumber EmptyString = None.
Proof. vm_compute. repeat split. Qed.

Example text_examples :
  JS.toLowerCase "Coastal Restoration" = "coastal restoration" /\
  JS.includes "coastal restoration" "coastal" = true /\
  JS.includes "agroforestry" "forest" = true /\
  JS.includes "reforestation" "agroforestry" = false /\
  JS.includes "reforestation" EmptyString = true /\
  JS.startsWith "reforestation" "forest" = false.
Proof. vm_compute. repeat split. Qed.

(** ** Text: [startsWith], [includes] and [toLowerCase] *)

Section Text.

Lemma startsWith_app (p rest : string) : JS.startsWith (p ++ rest) p = true.
Proof.
  induction p as [|a p IH]; simpl.
  - destruct rest; reflexivity.
  - now rewrite Ascii.eqb_refl, IH.
Qed.

Lemma startsWith_inv (s p : string) :
  JS.startsWith s p = true -> exists rest, s = p ++ rest.
Proof.
  revert s; induction p as [|a p IH]; intros s H.
  - exists s. reflexivity.
  - destruct s as [|b s]; simpl in H; [discriminate|].
    apply andb_true_iff in H as [Hab Hrest].
    apply Ascii.eqb_eq in Hab; subst b.
    destruct (IH _ Hrest) as [rest ->].
    exists rest. reflexivity.
Qed.

Lemma includes_cons (c : ascii) (s p : string) :
  JS.includes (String c s) p =
  JS.startsWith (String c s) p || JS.includes s p.
Proof. reflexivity. Qed.

Lemma includes_inv (s p : string) :
  JS.includes s p = true -> exists before after_, s = before ++ p ++ after_.
Proof.
  induction s as [|c s IH]; intros H.
  - destruct p; [|discriminate].
    exists EmptyString, EmptyString. reflexivity.
  - rewrite includes_cons in H. apply orb_true_iff in H as [H|H].
    + destruct (startsWith_inv _ _ H) as [rest Hrest].
      exists EmptyString, rest. exact Hrest.
    + destruct (IH H) as (before & after_ & ->).
      exists (String c before), after_. reflexivity.
Qed.

Lemma includes_startsWith (s p : string) :
  JS.startsWith s p = true -> JS.includes s p = true.
Proof.
  intros H. destruct s; [|rewrite includes_cons, H; reflexivity].
  destruct p; [reflexivity|discriminate].
Qed.

Lemma includes_app (before p after_ : string) :
  JS.includes (before ++ p ++ after_) p = true.
Proof.
  induction before as [|c before IH].
  - change (JS.includes (p ++ after_) p = true).
    apply includes_startsWith, startsWith_app.
  - change (String c before ++ p ++ after_)
      with (String c (before ++ p ++ after_)).
    rewrite includes_cons, IH. apply orb_true_r.
Qed.

Lemma includes_spec (s p : string) :
  JS.includes s p = true <-> exists before after_, s = before ++ p ++ after_.
Proof.
  split.
  - apply includes_inv.
  - intros (before & after_ & ->). apply includes_app.
Qed.

(** The character code of a lower-cased character. *)
Lemma toLowerCaseChar_code (c : ascii) :
  nat_of_ascii (JS.toLowerCaseChar c) =
  if (65 <=? nat_of_ascii c)%nat && (nat_of_ascii c <=? 90)%nat
  then (nat_of_ascii c + 32)%nat else nat_of_ascii c.
Proof.
  unfold JS.toLowerCaseChar.
  destruct ((65 <=? nat_of_ascii c)%nat && (nat_of_ascii c <=? 90)%nat) eqn:E.
  - apply andb_true_iff in E as [_ E]. apply Nat.leb_le in E.
    apply nat_ascii_embedding. lia.
  - reflexivity.
Qed.

Lemma ascii_code_inj (a b : ascii) : nat_of_ascii a = nat_of_ascii b -> a = b.
Proof.
  intros H.
  rewrite <- (ascii_nat_embedding a), <- (ascii_nat_embedding b), H.
  reflexivity.
Qed.

Lemma toLowerCaseChar_same (a b : ascii) :
  JS.toLowerCaseChar a = JS.toLowerCaseChar b <-> sameUpToCase a b.
Proof.
  unfold sameUpToCase, isUpper.
  split.
  - intros H. apply (f_equal nat_of_ascii) in H.
    rewrite !toLowerCaseChar_code in H.
    destruct (Nat.leb_spec 65 (nat_of_ascii a)), (Nat.leb_spec (nat_of_ascii a) 90),
             (Nat.leb_spec 65 (nat_of_ascii b)), (Nat.leb_spec (nat_of_ascii b) 90);
      simpl in H;
      first [ left; apply ascii_code_inj; lia
            | right; left; lia
            | right; right; lia ].
  - intros H. apply ascii_code_inj. rewrite !toLowerCaseChar_code.
    destruct H as [->|[[Ha Hb]|[Hb Ha]]]; [reflexivity| |].
    + destruct (Nat.leb_spec 65 (nat_of_ascii a)), (Nat.leb_spec (nat_of_ascii a) 90),
               (Nat.leb_spec 65 (nat_of_ascii b)), (Nat.leb_spec (nat_of_ascii b) 90);
        simpl; lia.
    + destruct (Nat.leb_spec 65 (nat_of_ascii a)), (Nat.leb_spec (nat_of_ascii a) 90),
               (Nat.leb_spec 65 (nat_of_ascii b)), (Nat.leb_spec (nat_of_ascii b) 90);
        simpl; lia.
Qed.

Lemma toLowerCase_matches (s t : string) :
  JS.toLowerCase s = JS.toLowerCase t <-> matchesUpToCase s t.
Proof.
  split.
  - revert t; induction s as [|a s IH]; intros [|b t] H; simpl in H;
      try discriminate.
    + constructor.
    + injection H as Hc Hs. constructor.
      * now apply toLowerCaseChar_same.
      * now apply IH.
  - induction 1 as [|a b s t Hab _ IH]; simpl.
    + reflexivity.
    + apply toLowerCaseChar_same in Hab. now rewrite Hab, IH.
Qed.

Lemma toLowerCase_app (s t : string) :
  JS.toLowerCase (s ++ t) = JS.toLowerCase s ++ JS.toLowerCase t.
Proof.
  induction s as [|a s IH]; simpl; [reflexivity | now rewrite IH].
Qed.

(** A split of the lower-cased text comes from a split of the text. *)
Lemma toLowerCase_split (s x y : string) :
  JS.toLowerCase s = x ++ y ->
  exists a b, s = a ++ b /\ JS.toLowerCase a = x /\ JS.toLowerCase b = y.
Proof.
  revert s; induction x as [|c x IH]; intros s H.
  - exists EmptyString, s. auto.
  - destruct s as [|d s]; simpl in H; [discriminate|].
    injection H as Hc Hs.
    destruct (IH _ Hs) as (a & b & -> & Ha & Hb).
    exists (String d a), b. simpl. rewrite Hc, Ha. auto.
Qed.

(** What the filter's test decides. *)
Lemma includes_toLowerCase (text pattern : string) :
  JS.includes (JS.toLowerCase text) (JS.toLowerCase pattern) = true <->
  containsUpToCase text pattern.
Proof.
  unfold containsUpToCase. rewrite includes_spec. split.
  - intros (x & z & H).
    destruct (toLowerCase_split _ _ _ H) as (before & rest & -> & _ & Hrest).
    destruct (toLowerCase_split _ _ _ Hrest) as (middle & after_ & -> & Hm & _).
    exists before, middle, after_. split; [reflexivity|].
    now apply toLowerCase_matches.
  - intros (before & middle & after_ & -> & Hm).
    apply toLowerCase_matches in Hm.
    exists (JS.toLowerCase before), (JS.toLowerCase after_).
    now rewrite !toLowerCase_app, Hm.
Qed.

End Text.

(** ** The Marketplace page *)

Lemma reduce_is_sumOver (f : Market.CarbonCredit -> float)
  (credits : list Market.CarbonCredit) :
  JS.reduce (fun acc credit => acc + f credit)%float 0%float credits =
  sumOver f credits.
Proof. reflexivity. Qed.

Lemma filteredCredits_all : Market.filteredCredits "all" = Market.carbonCredits.
Proof. reflexivity. Qed.

Lemma filteredCredits_other (selectedFilter : string) :
  selectedFilter <> "all" ->
  Market.filteredCredits selectedFilter =
  List.filter
    (fun credit =>
       JS.includes (JS.toLowerCase (Market.type credit))
                   (JS.toLowerCase selectedFilter))
    Market.carbonCredits.
Proof.
  intros H. unfold Market.filteredCredits.
  destruct (String.eqb_spec selectedFilter "all"); [contradiction|reflexivity].
Qed.

Lemma carbonCredits_NoDup : NoDup Market.carbonCredits.
Proof.
  apply (NoDup_map_inv Market.name). simpl.
  repeat constructor; simpl; intuition discriminate.
Qed.

(** On the first render the filter is ["all"]: the whole catalogue shows. *)
Lemma marketplace_initial :
  Market.cards (Market.Marketplace Market.initialFilter) = Market.carbonCredits.
Proof. reflexivity. Qed.

(** C10. In the Marketplace view, whatever the selected filter: the filter
    ["all"] keeps the whole static catalogue of four credits; any other
    filter keeps, in catalogue order, exactly the credits whose type contains
    the filter text up to case; the card list and the "Active Projects" count
    are those of the filtered list, "Credits Available" is the sum of
    [availableCredits] over it and "Total Value" the sum of
    [price * availableCredits] over it. *)
Theorem marketplace_filter_and_statistics (selectedFilter : string) :
  Market.filteredCredits "all" = Market.carbonCredits /\
  List.length Market.carbonCredits = 4%nat /\
  NoDup Market.carbonCredits /\
  (forall credit,
      In credit (Market.filteredCredits selectedFilter) <->
      In credit Market.carbonCredits /\
      (selectedFilter = "all" \/
       containsUpToCase (Market.type credit) selectedFilter)) /\
  (exists keep,
      Market.filteredCredits selectedFilter =
      List.filter keep Market.carbonCredits) /\
  Market.cards (Market.Marketplace selectedFilter) =
    Market.filteredCredits selectedFilter /\
  Market.activeProjects (Market.statistics (Market.Marketplace selectedFilter)) =
    List.length (Market.filteredCredits selectedFilter) /\
  Market.creditsAvailable (Market.statistics (Market.Marketplace selectedFilter)) =
    sumOver Market.availableCredits (Market.filteredCredits selectedFilter) /\
  Market.totalValue (Market.statistics (Market.Marketplace selectedFilter)) =
    sumOver (fun credit => Market.price credit * Market.availableCredits credit)%float
            (Market.filteredCredits selectedFilter).
Proof.
  split; [exact filteredCredits_all|].
  split; [reflexivity|].
  split; [exact carbonCredits_NoDup|].
  split; [|split].
  - intros credit.
    destruct (String.eqb_spec selectedFilter "all") as [->|Hne].
    + rewrite filteredCredits_all. tauto.
    + rewrite (filteredCredits_other _ Hne), filter_In, includes_toLowerCase.
      tauto.
  - destruct (String.eqb_spec selectedFilter "all") as [->|Hne].
    + exists (fun _ => true). rewrite filteredCredits_all. reflexivity.
    + eexists. apply (filteredCredits_other _ Hne).
  - unfold Market.Marketplace; simpl.
    repeat split; apply reduce_is_sumOver.
Qed.

(** The four tabs: what each one shows. *)
Example marketplace_tabs :
  List.map (fun tab => Market.statistics (Market.Marketplace tab))
           Market.tabValues =
  [ Market.mkStatistics 4 3200 47436;
    Market.mkStatistics 2 1230 16191;
    Market.mkStatistics 1 1650 25245;
    Market.mkStatistics 1 320 6000 ].
Proof. vm_compute. reflexivity. Qed.

(** ** The EmissionTracker page *)

(** The figures, evaluated. *)
Lemma figures_values :
  Tracker.totalEmissions = 120%float /\
  Tracker.yearlyEmissions = 1440%float /\
  Tracker.tonsPerYear = 1.44%float /\
  Tracker.creditsToOffset = 0.72%float /\
  Tracker.remainingTons = 0.576%float /\
  Tracker.estimatedCost = 0x1.147ae147ae147p+3%float.
Proof. vm_compute. repeat split. Qed.

(** A render returns, leaves the state as it was, echoes the state in the
    form controls and shows the figures. *)
Lemma EmissionTracker_run (st : Tracker.State) :
  exists v,
    Tracker.EmissionTracker st = (Returned v, st) /\
    Tracker.select_value v = Tracker.cookingFuel st /\
    Tracker.fuelAmount_value v = Tracker.fuelAmount st /\
    Tracker.generatorHours_value v = Tracker.generatorHours st /\
    Tracker.wasteAmount_value v = Tracker.wasteAmount st /\
    Tracker.total_kg v = Tracker.totalEmissions /\
    Tracker.month_kg v = Tracker.totalEmissions /\
    Tracker.breakdown v =
      [ Tracker.mkRow "cooking" 45 37.5;
        Tracker.mkRow "electricity" 32 (32 / 120 * 100);
        Tracker.mkRow "transport" 28 (28 / 120 * 100);
        Tracker.mkRow "waste" 15 12.5 ] /\
    Tracker.tons_per_year v = JS.toFixed Tracker.tonsPerYear 1 /\
    Tracker.annual_tons v = JS.toFixed Tracker.tonsPerYear 1 /\
    Tracker.offset_credits v = JS.toFixed Tracker.creditsToOffset 1 /\
    Tracker.remaining_tons v = JS.toFixed Tracker.remainingTons 1 /\
    Tracker.estimated_cost v = JS.toFixed Tracker.estimatedCost 0.
Proof.
  eexists. split.
  - unfold Tracker.EmissionTracker, Tracker.bind, Tracker.useState, Tracker.ret.
    reflexivity.
  - cbv beta iota delta [Tracker.select_value Tracker.fuelAmount_value
      Tracker.generatorHours_value Tracker.wasteAmount_value Tracker.total_kg
      Tracker.month_kg Tracker.breakdown Tracker.tons_per_year
      Tracker.annual_tons Tracker.offset_credits Tracker.remaining_tons
      Tracker.estimated_cost].
    repeat split.
Qed.

Lemma formatted_figures :
  JS.toFixed Tracker.tonsPerYear 1 = Some "1.4" /\
  JS.toFixed Tracker.creditsToOffset 1 = Some "0.7" /\
  JS.toFixed Tracker.remainingTons 1 = Some "0.6" /\
  JS.toFixed Tracker.estimatedCost 0 = Some "9".
Proof. vm_compute. repeat split. Qed.

(** The view of a render shows the fixed footprint. *)
Lemma run_shows (st : Tracker.State) (v : Tracker.View) :
  Tracker.EmissionTracker st = (Returned v, st) ->
  shows v (Spec.mkFootprint 45 32 28 15 120).
Proof.
  intros Hv. destruct (EmissionTracker_run st) as (v' & Hrun & H).
  rewrite Hrun in Hv. injection Hv as <-.
  destruct H as (_ & _ & _ & _ & Htotal & _ & Hrows & _).
  unfold shows, Tracker.amountOf. rewrite Hrows, Htotal.
  repeat split.
Qed.

(** *** The footprint *)

(** On the blank form every category is absent, and the aggregator of the
    specification returns the zero footprint under any factor table. *)
Lemma spec_blank_form (ef : Spec.EmissionFactor) :
  Spec.computeMonthlyFootprint ef (activityInputs Tracker.initialState) =
  Returned (Spec.mkFootprint 0 0 0 0 0).
Proof. reflexivity. Qed.

(** C1, as stated, fails on the blank form: every category is absent, so
    the stated rule gives four zero subtotals under any factor table, and
    the page shows 45, 32, 28 and 15. *)
Lemma blank_form_footprint_is_not_zero :
  ~ (exists ef v fp,
        Tracker.EmissionTracker Tracker.initialState =
          (Returned v, Tracker.initialState) /\
        Spec.computeMonthlyFootprint ef (activityInputs Tracker.initialState) =
          Returned fp /\
        shows v fp).
Proof.
  intros (ef & v & fp & Hv & Hfp & Hshows).
  rewrite spec_blank_form in Hfp. injection Hfp as <-.
  pose proof (run_shows _ _ Hv) as (_ & _ & Ht & _).
  destruct Hshows as (_ & _ & Ht' & _).
  rewrite Ht in Ht'. discriminate Ht'.
Qed.

(** C1, amended. Whatever the form holds, a render shows the four category
    subtotals cooking 45, electricity 32, transport 28 and waste 15, in this
    order, and their sum, 120, as the total: the subtotals are fixed
    figures, no quantity or emission factor enters them, and a category
    without input is not shown as zero. *)
Theorem footprint_is_fixed (st : Tracker.State) :
  exists v,
    Tracker.EmissionTracker st = (Returned v, st) /\
    List.map (fun r => (Tracker.row_category r, Tracker.row_amount r))
             (Tracker.breakdown v) =
      [("cooking", 45); ("electricity", 32); ("transport", 28); ("waste", 15)]%float /\
    shows v (Spec.mkFootprint 45 32 28 15 120) /\
    Tracker.total_kg v = (45 + 32 + 28 + 15)%float.
Proof.
  destruct (EmissionTracker_run st) as (v & Hrun & H).
  exists v. split; [exact Hrun|].
  destruct H as (_ & _ & _ & _ & Htotal & _ & Hrows & _).
  split; [|split].
  - rewrite Hrows. reflexivity.
  - exact (run_shows _ _ Hrun).
  - rewrite Htotal. reflexivity.
Qed.

(** C2. For every state of the form, the total a render shows is the sum
    of the four category subtotals it shows: as the left-to-right sum from
    zero that [reduce] computes, and exactly, as rationals. *)
Theorem total_is_sum_of_subtotals (st : Tracker.State) :
  exists v,
    Tracker.EmissionTracker st = (Returned v, st) /\
    List.length (Tracker.breakdown v) = 4%nat /\
    Tracker.total_kg v =
      List.fold_left (fun a b => a + b)%float
                     (List.map Tracker.row_amount (Tracker.breakdown v)) 0%float /\
    JS.exactQ (Tracker.total_kg v) =
      JS.exactSum (List.map Tracker.row_amount (Tracker.breakdown v)).
Proof.
  destruct (EmissionTracker_run st) as (v & Hrun & H).
  exists v. split; [exact Hrun|].
  destruct H as (_ & _ & _ & _ & Htotal & _ & Hrows & _).
  rewrite Hrows, Htotal. repeat split.
Qed.

(** *** The yearly projection *)

(** The component of the page is the instance of its body at the literal
    [monthlyEmissions]. *)
Lemma EmissionTracker_instance :
  Tracker.EmissionTracker = Tracker.EmissionTrackerOf Tracker.monthlyEmissions.
Proof. reflexivity. Qed.



(** *** Failures *)

(** C4, as stated, fails on a form that holds an unrecognised fuel type, a
    negative quantity and a non-numeric quantity: the stated rule rejects
    it, under any factor table, and the render returns. *)
Lemma invalid_input_is_not_rejected :
  let st := Tracker.mkState "diesel" "-5" "abc" "2" in
  Spec.invalidInput (activityInputs st) = true /\
  (forall ef,
      Spec.computeMonthlyFootprint ef (activityInputs st) = Thrown InvalidInput) /\
  exists v, Tracker.EmissionTracker st = (Returned v, st).
Proof.
  intros st. split; [reflexivity|]. split; [reflexivity|].
  destruct (EmissionTracker_run st) as (v & Hrun & _). now exists v.
Qed.

(** C4, amended. The footprint computation has no failure mode: for every
    state of the form, negative or non-numeric quantities and unrecognised
    fuel types included, the render returns its view and throws nothing. *)
Theorem render_never_fails (st : Tracker.State) :
  (exists v, fst (Tracker.EmissionTracker st) = Returned v) /\
  (forall e, fst (Tracker.EmissionTracker st) <> Thrown e).
Proof.
  destruct (EmissionTracker_run st) as (v & Hrun & _).
  rewrite Hrun. split.
  - now exists v.
  - intros e He. discriminate He.
Qed.

(** *** The worked example *)

(** The rule of the specification on the example inputs and factors: the
    electricity subtotal is [3 * 10.67], which is not 32. *)
Lemma spec_example_arithmetic :
  let ef := Spec.mkFactors
              (fun fuel => match fuel with Spec.Charcoal => 9 | _ => 0 end)%float
              (fun c => match c with
                        | Spec.Electricity => 10.67
                        | Spec.Waste => 7.5
                        | _ => 0
                        end)%float in
  Spec.computeMonthlyFootprint ef
    (activityInputs (Tracker.mkState "charcoal" "5" "3" "2")) =
  Returned (Spec.mkFootprint 45 (3 * 10.67) 0 15 (45 + 3 * 10.67 + 0 + 15)).
Proof. vm_compute. reflexivity. Qed.

(** C5, as stated, fails: with charcoal, 5 kg, 3 hours and 2 kg entered,
    the page does not show transport 0 and total 92, and the yearly figures
    are not 1104 kg and 1.104 t. *)
Lemma example_is_not_92 :
  let st := Tracker.mkState "charcoal" "5" "3" "2" in
  ~ (exists v,
        Tracker.EmissionTracker st = (Returned v, st) /\
        shows v (Spec.mkFootprint 45 32 0 15 92) /\
        Tracker.yearlyEmissions = 1104%float /\
        Tracker.tonsPerYear = 1.104%float).
Proof.
  intros st (v & Hv & Hshows & _).
  pose proof (run_shows _ _ Hv) as (_ & _ & Ht & _).
  destruct Hshows as (_ & _ & Ht' & _).
  rewrite Ht in Ht'. discriminate Ht'.
Qed.

(** C5, amended. With charcoal, 5 kg, 3 hours and 2 kg entered the page
    shows cooking 45, electricity 32, transport 28, waste 15 and total 120
    kg a month; the yearly projection is 1440 kg, that is 1.44 t, printed
    as 1.4. *)
Theorem example_footprint :
  let st := Tracker.mkState "charcoal" "5" "3" "2" in
  exists v,
    Tracker.EmissionTracker st = (Returned v, st) /\
    shows v (Spec.mkFootprint 45 32 28 15 120) /\
    Tracker.yearlyEmissions = 1440%float /\
    Tracker.tonsPerYear = 1.44%float /\
    Tracker.tons_per_year v = Some "1.4".
Proof.
  intros st.
  destruct (EmissionTracker_run st) as (v & Hrun & H).
  exists v. split; [exact Hrun|].
  split; [exact (run_shows _ _ Hrun)|].
  destruct H as (_ & _ & _ & _ & _ & _ & _ & Htons & _).
  rewrite Htons.
  destruct figures_values as (_ & Hy & Ht & _).
  destruct formatted_figures as (Hf & _).
  auto.
Qed.

(** *** The offset figures *)

(** The two offset figures of the page, for every state of the form: the
    credits figure is the yearly kilograms divided by the literal 2000,
    the fractional value 0.72, printed with one decimal as 0.7; the
    estimated cost is 40% of the yearly tonnage (0.576 t, printed 0.6)
    times the literal 15, printed without decimals as 9. *)
Lemma offset_figures (st : Tracker.State) :
  exists v,
    Tracker.EmissionTracker st = (Returned v, st) /\
    Tracker.creditsToOffset = (Tracker.yearlyEmissions / 2000)%float /\
    Tracker.creditsToOffset = (Tracker.tonsPerYear * 1000 / 2000)%float /\
    Tracker.creditsToOffset = 0.72%float /\
    Tracker.offset_credits v = Some "0.7" /\
    Tracker.remainingTons = (Tracker.yearlyEmissions * 0.4 / 1000)%float /\
    Tracker.estimatedCost = (Tracker.remainingTons * 15)%float /\
    Tracker.remaining_tons v = Some "0.6" /\
    Tracker.estimated_cost v = Some "9".
Proof.
  destruct (EmissionTracker_run st) as (v & Hrun & H).
  exists v. split; [exact Hrun|].
  destruct H as (_ & _ & _ & _ & _ & _ & _ & _ & _ & Hc & Hr & He).
  destruct formatted_figures as (_ & Hfc & Hfr & Hfe).
  rewrite Hc, Hr, He, Hfc, Hfr, Hfe.
  repeat split.
Qed.

(** The page has no price per credit and no kilograms per credit to be
    set.  With both left free, the rule of the specification fits the
    page's two figures: at 2000 kg per credit and a price just under 12 it
    returns exactly the credits figure and the estimated cost; at the
    page's literal 15 it fits the cost when applied to the remaining 40% of
    the tonnage at 1000 kg per credit, and does not fit it when applied to
    the whole tonnage. *)
Lemma offset_figures_and_the_stated_rule :
  Spec.recommendOffset Tracker.tonsPerYear 0x1.7ffffffffffffp+3 2000 =
    Returned (Spec.mkOffset Tracker.creditsToOffset Tracker.estimatedCost) /\
  Spec.recommendOffset Tracker.remainingTons 15 1000 =
    Returned (Spec.mkOffset Tracker.remainingTons Tracker.estimatedCost) /\
  Spec.recommendOffset Tracker.tonsPerYear 15 2000 =
    Returned (Spec.mkOffset Tracker.creditsToOffset
                            (Tracker.creditsToOffset * 15)) /\
  Tracker.estimatedCost <> (Tracker.creditsToOffset * 15)%float.
Proof.
  repeat split; try (vm_compute; reflexivity).
  intro H. vm_compute in H. discriminate H.
Qed.

(** The render never ends in InvalidConfiguration, and the page's two
    literals, 2000 kg per credit and 15, are a configuration the rule of
    the specification accepts. *)
Lemma offset_never_fails (st : Tracker.State) :
  (exists v,
      fst (Tracker.EmissionTracker st) = Returned v /\
      Tracker.offset_credits v = JS.toFixed (Tracker.yearlyEmissions / 2000) 1 /\
      Tracker.estimated_cost v =
        JS.toFixed (Tracker.yearlyEmissions * 0.4 / 1000 * 15) 0) /\
  fst (Tracker.EmissionTracker st) <> Thrown InvalidConfiguration /\
  (exists r, Spec.recommendOffset Tracker.tonsPerYear 15 2000 = Returned r).
Proof.
  destruct (EmissionTracker_run st) as (v & Hrun & H).
  rewrite Hrun.
  destruct H as (_ & _ & _ & _ & _ & _ & _ & _ & _ & Hc & _ & He).
  split; [|split].
  - exists v. rewrite Hc, He. repeat split.
  - intro Habs. discriminate Habs.
  - eexists. reflexivity.
Qed.

(** *** Renders and the state *)

(** A render only reads the four cells: two renders in a row from any
    state return the same view and leave the state as it was. *)
Lemma render_leaves_the_state (st : Tracker.State) :
  exists v,
    Tracker.EmissionTracker st = (Returned v, st) /\
    Tracker.bind Tracker.EmissionTracker
      (fun v1 => Tracker.bind Tracker.EmissionTracker
         (fun v2 => Tracker.ret (v1, v2))) st =
    (Returned (v, v), st).
Proof.
  destruct (EmissionTracker_run st) as (v & Hrun & _).
  exists v. split; [exact Hrun|].
  unfold Tracker.bind at 1. rewrite Hrun.
  unfold Tracker.bind. rewrite Hrun. reflexivity.
Qed.

(** *** Independence from the form *)

(** The handlers do what their name says, so the form controls do depend on
    the state: two states can show different views. *)
Lemma views_can_differ :
  exists e st,
    fst (Tracker.EmissionTracker (Tracker.after [e] st)) <>
    fst (Tracker.EmissionTracker st).
Proof.
  exists (Tracker.FuelAmountChange "5"), Tracker.initialState.
  intro H. vm_compute in H. discriminate H.
Qed.


(** The figures stay the same along any sequence of events. *)
Lemma figures_after_events (events : list Tracker.Event) (st : Tracker.State) :
  exists v v',
    Tracker.EmissionTracker st = (Returned v, st) /\
    Tracker.EmissionTracker (Tracker.after events st) =
      (Returned v', Tracker.after events st) /\
    Tracker.total_kg v' = Tracker.total_kg v /\
    Tracker.breakdown v' = Tracker.breakdown v /\
    Tracker.tons_per_year v' = Tracker.tons_per_year v /\
    Tracker.offset_credits v' = Tracker.offset_credits v.
Proof.
  revert st. induction events as [|e events IH]; intros st.
  - destruct (EmissionTracker_run st) as (v & Hrun & _).
    exists v, v. simpl. repeat split; exact Hrun.
  - destruct (IH (snd (Tracker.handle e st))) as (w & v' & Hw & Hv' & Heq).
    destruct (EmissionTracker_run st) as (v & Hrun & H).
    destruct (EmissionTracker_run (snd (Tracker.handle e st))) as (w' & Hw' & H').
    rewrite Hw' in Hw. injection Hw as <-.
    exists v, v'. simpl. split; [exact Hrun|]. split; [exact Hv'|].
    destruct Heq as (E1 & E2 & E3 & E4).
    destruct H as (_ & _ & _ & _ & Ht & _ & Hb & Hy & _ & Hc & _).
    destruct H' as (_ & _ & _ & _ & Ht' & _ & Hb' & Hy' & _ & Hc' & _).
    rewrite E1, E2, E3, E4, Ht, Hb, Hy, Hc, Ht', Hb', Hy', Hc'.
    repeat split.
Qed.

(** * Further properties of the components *)

(** ** The tracker form *)

Lemma after_lastValue (events : list Tracker.Event) (st : Tracker.State) :
  Tracker.after events st =
  Tracker.mkState
    (lastValue selectValue events (Tracker.cookingFuel st))
    (lastValue fuelAmountValue events (Tracker.fuelAmount st))
    (lastValue generatorHoursValue events (Tracker.generatorHours st))
    (lastValue wasteAmountValue events (Tracker.wasteAmount st)).
Proof.
  revert st. induction events as [|e events IH]; intros st.
  - destruct st; reflexivity.
  - simpl. rewrite IH. destruct e; reflexivity.
Qed.

Lemma run_controls (st : Tracker.State) (v : Tracker.View) :
  Tracker.EmissionTracker st = (Returned v, st) -> controls v = st.
Proof.
  intros Hv. destruct (EmissionTracker_run st) as (v' & Hrun & H).
  rewrite Hrun in Hv. injection Hv as <-.
  destruct H as (H1 & H2 & H3 & H4 & _).
  unfold controls. rewrite H1, H2, H3, H4. destruct st; reflexivity.
Qed.

(** X1. After any sequence of events, from any state, the render's four form
    controls show, field by field, the value carried by the last change
    event of that field (the string its handler received: the select's
    value, or [e.target.value] as the browser delivers it), or the field's
    earlier value when the sequence has none: the fields do not interfere.
    Every other field of the view, that is every figure, printed value and
    progress bar, is what it was before the events. *)
Theorem form_shows_last_entries (events : list Tracker.Event)
  (st : Tracker.State) :
  exists v0 v,
    Tracker.EmissionTracker st = (Returned v0, st) /\
    Tracker.EmissionTracker (Tracker.after events st) =
      (Returned v, Tracker.after events st) /\
    Tracker.select_value v =
      lastValue selectValue events (Tracker.cookingFuel st) /\
    Tracker.fuelAmount_value v =
      lastValue fuelAmountValue events (Tracker.fuelAmount st) /\
    Tracker.generatorHours_value v =
      lastValue generatorHoursValue events (Tracker.generatorHours st) /\
    Tracker.wasteAmount_value v =
      lastValue wasteAmountValue events (Tracker.wasteAmount st) /\
    v = Tracker.mkView
          (Tracker.select_value v) (Tracker.fuelAmount_value v)
          (Tracker.generatorHours_value v) (Tracker.wasteAmount_value v)
          (Tracker.total_kg v0) (Tracker.tons_per_year v0)
          (Tracker.breakdown v0) (Tracker.offset_credits v0)
          (Tracker.month_kg v0) (Tracker.goal_progress v0)
          (Tracker.annual_tons v0) (Tracker.annual_percent v0)
          (Tracker.annual_progress v0) (Tracker.remaining_tons v0)
          (Tracker.estimated_cost v0).
Proof.
  destruct (EmissionTracker_run st) as (v0 & Hrun0 & _).
  destruct (EmissionTracker_run (Tracker.after events st)) as (v & Hrun & _).
  exists v0, v. split; [exact Hrun0|]. split; [exact Hrun|].
  pose proof (run_controls _ _ Hrun) as Hc.
  rewrite after_lastValue in Hc. unfold controls in Hc.
  injection Hc as H1 H2 H3 H4.
  split; [exact H1|]. split; [exact H2|]. split; [exact H3|]. split; [exact H4|].
  unfold Tracker.EmissionTracker, Tracker.EmissionTrackerOf, Tracker.bind,
    Tracker.useState, Tracker.ret in Hrun0, Hrun.
  injection Hrun0 as <-. injection Hrun as <-.
  reflexivity.
Qed.

Lemma lastValue_without_buttons (pick : Tracker.Event -> option string)
  (events : list Tracker.Event) (default : string) :
  pick Tracker.ButtonClick = None ->
  lastValue pick (List.filter (fun e => negb (isButtonClick e)) events) default =
  lastValue pick events default.
Proof.
  intros Hpick. revert default.
  induction events as [|e events IH]; intros default; [reflexivity|].
  destruct e; simpl; rewrite ?IH, ?Hpick; reflexivity.
Qed.

(** X2. The buttons of the page ("Calculate Emissions" among them) do
    nothing: dropping every button click from a sequence of events leads to
    the same state and the same render. *)
Theorem buttons_are_inert (events : list Tracker.Event) (st : Tracker.State) :
  let typed := List.filter (fun e => negb (isButtonClick e)) events in
  Tracker.after events st = Tracker.after typed st /\
  Tracker.EmissionTracker (Tracker.after events st) =
  Tracker.EmissionTracker (Tracker.after typed st).
Proof.
  intros typed.
  assert (H : Tracker.after events st = Tracker.after typed st).
  { unfold typed. rewrite !after_lastValue.
    rewrite !lastValue_without_buttons by reflexivity. reflexivity. }
  split; [exact H | now rewrite H].
Qed.

(** X3. The progress bars of the page, for every state of the form: the four
    rows of the breakdown have values between 0 and 100 that add up to
    exactly 100, while the bar of the monthly goal gets 120 and that of the
    annual target 144, both over the 100 a full bar stands for. *)
Theorem tracker_progress_bars (st : Tracker.State) :
  exists v,
    Tracker.EmissionTracker st = (Returned v, st) /\
    List.forallb (fun r => (0 <=? Tracker.row_progress r)%float &&
                           (Tracker.row_progress r <=? 100)%float)
                 (Tracker.breakdown v) = true /\
    List.fold_left (fun a r => a + Tracker.row_progress r)%float
                   (Tracker.breakdown v) 0%float = 100%float /\
    Tracker.goal_progress v = 120%float /\
    Tracker.annual_progress v = 144%float /\
    (100 <? Tracker.goal_progress v)%float = true /\
    (100 <? Tracker.annual_progress v)%float = true.
Proof.
  eexists. split.
  - unfold Tracker.EmissionTracker, Tracker.bind, Tracker.useState, Tracker.ret.
    reflexivity.
  - cbv beta iota delta [Tracker.breakdown Tracker.goal_progress
                           Tracker.annual_progress].
    repeat split.
Qed.

(** ** The navigation bar *)

Lemma highlighted_spec (st : Nav.State) :
  Nav.highlighted (Nav.Navigation st) =
  List.map (fun item => Nav.mkDesktop (Nav.path item) "default"
                                      (Nav.icon item) (Nav.label item))
           (List.filter (fun item => Nav.isActive (Nav.location_pathname st)
                                                  (Nav.path item))
                        Nav.navItems).
Proof.
  unfold Nav.highlighted, Nav.Navigation. cbn [Nav.desktop].
  induction Nav.navItems as [|item items IH]; [reflexivity|].
  cbn [List.map List.filter Nav.d_variant].
  destruct (Nav.isActive (Nav.location_pathname st) (Nav.path item));
    cbn; rewrite IH; reflexivity.
Qed.

(** In a list of items with pairwise different paths, at most one has a
    given path. *)
Lemma one_item_per_path (items : list Nav.NavItem) (p : string) :
  NoDup (List.map Nav.path items) ->
  (List.length (List.filter (fun item => Nav.isActive p (Nav.path item)) items)
   <= 1)%nat.
Proof.
  induction items as [|item items IH]; intros Hnd; simpl; [lia|].
  inversion Hnd as [|x xs Hnotin Hnd']; subst.
  unfold Nav.isActive at 1.
  destruct (String.eqb_spec p (Nav.path item)) as [->|Hne].
  - assert (Hnone : List.filter
                      (fun i => Nav.isActive (Nav.path item) (Nav.path i))
                      items = []).
    { destruct (List.filter _ items) as [|j js] eqn:E; [reflexivity|].
      exfalso. apply Hnotin.
      assert (Hj : In j (j :: js)) by now left.
      rewrite <- E in Hj. apply filter_In in Hj as [Hin Hact].
      apply String.eqb_eq in Hact. rewrite Hact.
      now apply in_map. }
    rewrite Hnone. simpl. lia.
  - now apply IH.
Qed.

Lemma navItems_paths_NoDup : NoDup (List.map Nav.path Nav.navItems).
Proof. simpl. repeat constructor; simpl; intuition discriminate. Qed.

(** X4. Whatever the location and whether the menu is open or not, the bar
    highlights at most one entry, every highlighted entry leads to the
    current location, and exactly one entry is highlighted if and only if
    the location is literally one of the six paths of [navItems]. *)
Theorem one_highlighted_entry (st : Nav.State) :
  let hs := Nav.highlighted (Nav.Navigation st) in
  (List.length hs <= 1)%nat /\
  (forall b, In b hs -> Nav.d_to b = Nav.location_pathname st) /\
  (List.length hs = 1%nat <->
   In (Nav.location_pathname st) (List.map Nav.path Nav.navItems)).
Proof.
  intros hs. unfold hs. rewrite highlighted_spec.
  rewrite length_map.
  pose proof (one_item_per_path Nav.navItems (Nav.location_pathname st)
                                navItems_paths_NoDup) as Hle.
  split; [exact Hle|]. split.
  - intros b Hb. apply in_map_iff in Hb as (item & <- & Hitem).
    apply filter_In in Hitem as [_ Hact].
    apply String.eqb_eq in Hact. symmetry. exact Hact.
  - split.
    + intros Hlen.
      destruct (List.filter _ Nav.navItems) as [|item rest] eqn:E;
        [discriminate|].
      assert (Hin : In item (item :: rest)) by now left.
      rewrite <- E in Hin. apply filter_In in Hin as [Hin Hact].
      apply String.eqb_eq in Hact. rewrite Hact. now apply in_map.
    + intros Hin. apply in_map_iff in Hin as (item & Hpath & Hitem).
      assert (Hf : In item (List.filter
                    (fun i => Nav.isActive (Nav.location_pathname st) (Nav.path i))
                    Nav.navItems)).
      { apply filter_In. split; [exact Hitem|].
        apply String.eqb_eq. symmetry. exact Hpath. }
      destruct (List.filter _ Nav.navItems) as [|j [|k rest]];
        [destruct Hf | reflexivity | simpl in Hle; lia].
Qed.

(** A location that differs from a path only by case or by a trailing slash
    highlights nothing. *)
Example near_miss_locations :
  Nav.highlighted (Nav.Navigation (Nav.mkState false "/marketplace/")) = [] /\
  Nav.highlighted (Nav.Navigation (Nav.mkState false "/Marketplace")) = [] /\
  Nav.highlighted (Nav.Navigation (Nav.mkState false "/tracker/history")) = [].
Proof. vm_compute. repeat split. Qed.

Lemma after_menu_clicks (n : nat) (st : Nav.State) :
  Nav.after (List.repeat Nav.MenuButtonClick n) st =
  Nav.mkState (xorb (Nat.odd n) (Nav.isOpen st)) (Nav.location_pathname st).
Proof.
  revert st. induction n as [|n IH]; intros [o p].
  - reflexivity.
  - cbn [List.repeat]. unfold Nav.after in *. cbn [List.fold_left].
    rewrite IH. cbn. rewrite Nat.odd_succ, <- Nat.negb_odd.
    destruct (Nat.odd n), o; reflexivity.
Qed.

(** X5. The mobile menu is rendered exactly when [isOpen] holds, the menu
    button then shows the X icon and otherwise the Menu icon; [n] clicks on
    the menu button leave the menu as it was when [n] is even and flip it
    when [n] is odd, and never change the location. *)
Theorem menu_button_toggles (n : nat) (st : Nav.State) :
  let st' := Nav.after (List.repeat Nav.MenuButtonClick n) st in
  Nav.isOpen st' = xorb (Nat.odd n) (Nav.isOpen st) /\
  Nav.location_pathname st' = Nav.location_pathname st /\
  (Nav.mobile (Nav.Navigation st') <> None <-> Nav.isOpen st' = true) /\
  Nav.menu_button_icon (Nav.Navigation st') =
    (if Nav.isOpen st' then "X" else "Menu").
Proof.
  intros st'. unfold st'. rewrite after_menu_clicks. cbn.
  repeat split.
  - destruct (xorb (Nat.odd n) (Nav.isOpen st)); [reflexivity|].
    intros H. now contradiction H.
  - intros ->. discriminate.
Qed.

(** X6. When the menu is open, the mobile list mirrors the desktop one: the
    same destinations, icons and labels in the same order, and a mobile link
    carries the active class exactly when its desktop button is the
    highlighted ("default") one. *)
Theorem mobile_mirrors_desktop (st : Nav.State) :
  Nav.isOpen st = true ->
  exists links,
    Nav.mobile (Nav.Navigation st) = Some links /\
    List.map Nav.m_to links =
      List.map Nav.d_to (Nav.desktop (Nav.Navigation st)) /\
    List.map Nav.m_icon links =
      List.map Nav.d_icon (Nav.desktop (Nav.Navigation st)) /\
    List.map Nav.m_label links =
      List.map Nav.d_label (Nav.desktop (Nav.Navigation st)) /\
    List.map (fun l => JS.includes (Nav.m_className l) Nav.activeClass) links =
      List.map (fun b => String.eqb (Nav.d_variant b) "default")
               (Nav.desktop (Nav.Navigation st)).
Proof.
  intros Hopen. unfold Nav.Navigation. rewrite Hopen. cbn [Nav.mobile Nav.desktop].
  eexists. split; [reflexivity|].
  rewrite !map_map. cbn [Nav.m_to Nav.d_to Nav.m_icon Nav.d_icon Nav.m_label
                          Nav.d_label Nav.m_className Nav.d_variant].
  repeat split.
  apply map_ext. intros item.
  destruct (Nav.isActive (Nav.location_pathname st) (Nav.path item));
    vm_compute; reflexivity.
Qed.

Lemma mobile_mirrors_desktop_witness :
  exists links,
    Nav.mobile (Nav.Navigation (Nav.mkState true "/tracker")) = Some links /\
    List.map Nav.m_label links =
      ["Home"; "Marketplace"; "Dashboard"; "Emission Tracker"; "Map View"; "Learn"].
Proof.
  destruct (mobile_mirrors_desktop (Nav.mkState true "/tracker") eq_refl)
    as (links & Hm & _ & _ & Hl & _).
  exists links. split; [exact Hm|]. rewrite Hl. reflexivity.
Defined.

(** X7. A click on the link of one of the six entries makes that entry the
    only highlighted one; on a mobile link it also closes the menu, on a
    desktop link it leaves the menu as it was. *)
Theorem link_click_highlights_its_entry (item : Nav.NavItem) (st : Nav.State) :
  In item Nav.navItems ->
  let shown := [Nav.mkDesktop (Nav.path item) "default"
                              (Nav.icon item) (Nav.label item)] in
  Nav.isOpen (Nav.handle (Nav.MobileLinkClick item) st) = false /\
  Nav.mobile (Nav.Navigation (Nav.handle (Nav.MobileLinkClick item) st)) = None /\
  Nav.highlighted (Nav.Navigation (Nav.handle (Nav.MobileLinkClick item) st)) =
    shown /\
  Nav.isOpen (Nav.handle (Nav.DesktopLinkClick item) st) = Nav.isOpen st /\
  Nav.highlighted (Nav.Navigation (Nav.handle (Nav.DesktopLinkClick item) st)) =
    shown.
Proof.
  intros Hin shown. unfold shown.
  split; [reflexivity|]. split; [reflexivity|].
  rewrite !highlighted_spec. cbn [Nav.handle Nav.location_pathname].
  simpl in Hin.
  repeat (destruct Hin as [<-|Hin]; [repeat split|]).
  destruct Hin.
Qed.

Lemma link_click_highlights_its_entry_witness :
  Nav.highlighted
    (Nav.Navigation
       (Nav.handle
          (Nav.MobileLinkClick (Nav.mkItem "/tracker" "Emission Tracker" "Calculator"))
          (Nav.mkState true "/"))) =
  [Nav.mkDesktop "/tracker" "default" "Calculator" "Emission Tracker"].
Proof.
  refine (proj1 (proj2 (proj2
    (link_click_highlights_its_entry
       (Nav.mkItem "/tracker" "Emission Tracker" "Calculator")
       (Nav.mkState true "/") _)))).
  simpl. auto.
Defined.

(** ** The marketplace filter *)

Lemma includes_trans (a b c : string) :
  JS.includes a b = true -> JS.includes b c = true -> JS.includes a c = true.
Proof.
  rewrite !includes_spec.
  intros (x & y & ->) (u & w & ->).
  exists (x ++ u), (w ++ y).
  induction x as [|ch x IH]; simpl.
  - induction u as [|ch u IHu]; simpl.
    + induction c as [|ch c IHc]; simpl; [reflexivity | now rewrite IHc].
    + now rewrite IHu.
  - now rewrite IH.
Qed.

Lemma filteredCredits_In (selectedFilter : string) (credit : Market.CarbonCredit) :
  In credit (Market.filteredCredits selectedFilter) ->
  In credit Market.carbonCredits.
Proof.
  destruct (String.eqb_spec selectedFilter "all") as [->|Hne].
  - now rewrite filteredCredits_all.
  - rewrite (filteredCredits_other _ Hne), filter_In. tauto.
Qed.

(** X8. The filter ignores case: two filter texts that match character by
    character up to case, neither of them the literal ["all"], give the same
    page (the same cards and the same statistics). *)
Theorem filter_ignores_case (f g : string) :
  matchesUpToCase f g -> f <> "all" -> g <> "all" ->
  Market.Marketplace f = Market.Marketplace g.
Proof.
  intros Hm Hf Hg. apply toLowerCase_matches in Hm.
  unfold Market.Marketplace.
  rewrite (filteredCredits_other _ Hf), (filteredCredits_other _ Hg), Hm.
  reflexivity.
Qed.

Lemma filter_ignores_case_witness :
  Market.Marketplace "ReForestation" = Market.Marketplace "reforestation".
Proof.
  apply (filter_ignores_case "ReForestation" "reforestation").
  - apply toLowerCase_matches. reflexivity.
  - discriminate.
  - discriminate.
Defined.

(** X9. The test for the "all" filter is the one place where case counts:
    a filter that reads "all" up to case but is not literally ["all"]
    ("All", "ALL", ...) shows no credit at all, and the statistics are
    zero. *)
Theorem all_filter_is_case_sensitive (f : string) :
  matchesUpToCase f "all" -> f <> "all" ->
  Market.Marketplace f =
  Market.mkView (Market.mkStatistics 0 0 0) [].
Proof.
  intros Hm Hf. apply toLowerCase_matches in Hm.
  unfold Market.Marketplace.
  rewrite (filteredCredits_other _ Hf), Hm.
  vm_compute. reflexivity.
Qed.

Lemma all_filter_is_case_sensitive_witness :
  Market.Marketplace "ALL" = Market.mkView (Market.mkStatistics 0 0 0) [].
Proof.
  apply (all_filter_is_case_sensitive "ALL").
  - apply toLowerCase_matches. reflexivity.
  - discriminate.
Defined.

(** X10. A longer filter never shows more: when the filter [g] is not the
    literal ["all"] and contains the filter [f] up to case, every credit
    shown for [g] is shown for [f]; in particular the empty filter shows the
    whole catalogue. *)
Theorem longer_filter_narrows (f g : string) :
  g <> "all" -> containsUpToCase g f ->
  (forall credit,
      In credit (Market.filteredCredits g) ->
      In credit (Market.filteredCredits f)) /\
  Market.filteredCredits EmptyString = Market.carbonCredits.
Proof.
  intros Hg Hc. split; [|reflexivity].
  intros credit Hin.
  destruct (String.eqb_spec f "all") as [->|Hf].
  - rewrite filteredCredits_all. exact (filteredCredits_In _ _ Hin).
  - rewrite (filteredCredits_other _ Hg) in Hin.
    rewrite (filteredCredits_other _ Hf).
    apply filter_In in Hin as [Hcat Hinc]. apply filter_In.
    split; [exact Hcat|].
    apply includes_toLowerCase in Hc.
    exact (includes_trans _ _ _ Hinc Hc).
Qed.

Lemma longer_filter_narrows_witness :
  forallb (fun credit =>
             existsb (fun c => String.eqb (Market.name c) (Market.name credit))
                     (Market.filteredCredits "forest"))
          (Market.filteredCredits "Reforest") = true /\
  (forall credit,
      In credit (Market.filteredCredits "Reforest") ->
      In credit (Market.filteredCredits "forest")).
Proof.
  split; [reflexivity|].
  apply (longer_filter_narrows "forest" "Reforest").
  - discriminate.
  - apply includes_toLowerCase. reflexivity.
Defined.

(** The literal ["all"] is the exception: it contains "al" and shows more. *)
Example all_does_not_narrow :
  List.length (Market.filteredCredits "al") = 1%nat /\
  List.length (Market.filteredCredits "all") = 4%nat.
Proof. vm_compute. split; reflexivity. Qed.

(** X11. The three type tabs split the catalogue: their lists, put together,
    are a rearrangement of the whole catalogue, so every credit is under
    exactly one of them, and their three statistics add up to those of the
    "all" tab. *)
Theorem type_tabs_split_the_catalogue :
  let agro := Market.Marketplace "agroforestry" in
  let refo := Market.Marketplace "reforestation" in
  let coast := Market.Marketplace "coastal" in
  let all_ := Market.Marketplace "all" in
  Permutation
    (Market.cards agro ++ Market.cards refo ++ Market.cards coast)%list
    Market.carbonCredits /\
  (Market.activeProjects (Market.statistics agro) +
   Market.activeProjects (Market.statistics refo) +
   Market.activeProjects (Market.statistics coast))%nat =
    Market.activeProjects (Market.statistics all_) /\
  (Market.creditsAvailable (Market.statistics agro) +
   Market.creditsAvailable (Market.statistics refo) +
   Market.creditsAvailable (Market.statistics coast))%float =
    Market.creditsAvailable (Market.statistics all_) /\
  (Market.totalValue (Market.statistics agro) +
   Market.totalValue (Market.statistics refo) +
   Market.totalValue (Market.statistics coast))%float =
    Market.totalValue (Market.statistics all_).
Proof.
  intros agro refo coast all_.
  split; [|repeat split].
  vm_compute.
  apply perm_skip.
  eapply perm_trans; [apply perm_swap|].
  eapply perm_trans; [apply perm_skip, perm_swap|].
  apply perm_swap.
Qed.

(** ** The dashboard *)

(** X12. The header of the dashboard and the list under it: "Total Credits
    Owned" is the sum of the credits of the cards and the CO2 offset (95.0 t)
    is the sum of their offsets, but "Retired Credits" (23.2) is not the sum
    over the cards without a Retire button (11.5) and "Active Projects" (8)
    is neither the number of cards (4) nor of those with a Retire button
    (3): the header figures are literals of their own, not derived from
    the list. *)
Theorem dashboard_header_and_cards :
  let v := Dashboard.Dashboard in
  let retired := List.filter (fun c => negb (Dashboard.retire_button c))
                             (Dashboard.creditCards v) in
  let active := List.filter Dashboard.retire_button (Dashboard.creditCards v) in
  Dashboard.stat_totalCredits v =
    List.fold_left (fun a c => a + Dashboard.card_credits c)%float
                   (Dashboard.creditCards v) 0%float /\
  Dashboard.totalOffset Dashboard.userStats =
    List.fold_left (fun a c => a + Dashboard.offset c)%float
                   Dashboard.ownedCredits 0%float /\
  Dashboard.stat_offset_tons v = Some "95.0" /\
  List.fold_left (fun a c => a + Dashboard.card_credits c)%float retired 0%float =
    11.5%float /\
  Dashboard.stat_retiredCredits v = 23.2%float /\
  Dashboard.stat_activeProjects v = 8%float /\
  List.length (Dashboard.creditCards v) = 4%nat /\
  List.length active = 3%nat.
Proof.
  intros v retired active. unfold retired, active, v.
  vm_compute. repeat split.
Qed.

(** X13. Every holding of the dashboard offsets 2000 kg of CO2 per credit,
    the rate by which the tracker turns yearly kilograms into credits, and
    its card prints that offset in tonnes with one decimal. *)
Theorem holdings_offset_2000_kg_per_credit :
  List.Forall
    (fun c => Dashboard.offset c = (Dashboard.credits c * 2000)%float)
    Dashboard.ownedCredits /\
  Tracker.creditsToOffset = (Tracker.yearlyEmissions / 2000)%float /\
  List.map Dashboard.card_offset_tons (Dashboard.creditCards Dashboard.Dashboard) =
    [Some "25.0"; Some "16.6"; Some "30.4"; Some "23.0"].
Proof.
  split; [|split].
  - unfold Dashboard.ownedCredits.
    repeat (apply Forall_cons; [vm_compute; reflexivity|]).
    apply Forall_nil.
  - reflexivity.
  - vm_compute. reflexivity.
Qed.

(** X14. Every holding of the dashboard is a credit of the marketplace
    catalogue, under the same id and name, and its current value is its
    number of credits times the marketplace price, to the cent. *)
Theorem holdings_are_priced_as_in_the_marketplace :
  List.Forall
    (fun c =>
       exists m,
         In m Market.carbonCredits /\
         Market.id m = Dashboard.id c /\
         Market.name m = Dashboard.project c /\
         JS.toFixed (Dashboard.credits c * Market.price m) 2 =
           JS.toFixed (Dashboard.currentValue c) 2)
    Dashboard.ownedCredits.
Proof.
  unfold Dashboard.ownedCredits.
  apply Forall_cons.
  { eexists. split; [left; reflexivity|]. vm_compute. repeat split. }
  apply Forall_cons.
  { eexists. split; [right; left; reflexivity|]. vm_compute. repeat split. }
  apply Forall_cons.
  { eexists. split; [right; right; left; reflexivity|]. vm_compute. repeat split. }
  apply Forall_cons.
  { eexists. split; [right; right; right; left; reflexivity|].
    vm_compute. repeat split. }
  apply Forall_nil.
Qed.

(** The values the cards print are the literals, which need not be the
    products themselves: 8.3 credits at 18.75 are 155.625. *)
Example holding_value_is_rounded :
  (8.3 * 18.75)%float = 155.625%float /\
  JS.toFixed 155.625 2 = Some "155.63" /\
  List.map Dashboard.card_currentValue (Dashboard.creditCards Dashboard.Dashboard) =
    [156.25; 155.63; 232.56; 163.30]%float.
Proof. vm_compute. repeat split. Qed.
